(** * Static checking via metaclasses: the [MetaAlgorithm] validator

    The repository holds two notebooks that each define a metaclass
    [MetaAlgorithm] whose [__new__] checks, when a class is being defined,
    that the class conforms to an API (a [contributor] string, a [train]
    and a [classify] function) before handing over to [type.__new__].

    This file embeds both versions of [MetaAlgorithm.__new__] and proves
    the properties the specification states about them. *)

From stdpp Require Import base option list strings gmap relations.

Open Scope string_scope.
Open Scope list_scope.
Set Warnings "-register-all".

(** ** Python values, as far as the validator can tell them apart *)

(** The validator only ever asks two questions about a value found in the
    class namespace: [isinstance(v, str)] and [isinstance(v, FunctionType)].
    The constructors below cover the kinds of objects a class body can put
    in its namespace. *)
Inductive value : Type :=
  | VNone                                  (* None *)
  | VBool (b : bool)                       (* True, False *)
  | VInt (n : Z)                           (* an int *)
  | VStr (s : string)                      (* a str (or an instance of a subclass of str) *)
  | VFunction (qualname : string)          (* made by def or lambda: types.FunctionType *)
  | VBuiltin (name : string)               (* a built-in function such as len *)
  | VClass (name : string)                 (* a class object, called to make instances *)
  | VClassMethod (f : value)               (* classmethod(f) *)
  | VStaticMethod (f : value)              (* staticmethod(f) *)
  | VObject (cls : string) (has_call : bool).
                                           (* instance of another class; has_call: the
                                              class defines __call__ *)

(** The two types [__new__] passes to [isinstance]. *)
Inductive pytype : Type := str | FunctionType.

(** [isinstance(v, t)].  [types.FunctionType] cannot be subclassed, so only
    objects made by [def] or [lambda] are instances of it. *)
Definition isinstance (v : value) (t : pytype) : bool :=
  match t, v with
  | str, VStr _ => true
  | FunctionType, VFunction _ => true
  | _, _ => false
  end.

(** [callable(v)] (Python 3.8, the kernel of the notebooks: classmethod and
    staticmethod objects are descriptors and are not callable themselves). *)
Definition callable (v : value) : bool :=
  match v with
  | VFunction _ | VBuiltin _ | VClass _ => true
  | VObject _ has_call => has_call
  | _ => false
  end.

(** The class namespace [attrs]: a dict with string keys. *)
Abbreviation Attrs := (gmap string value).

(** ** Exceptions, interpreter state and the evaluation monad *)

Inductive exn : Type :=
  | RuntimeError (msg : string)
  | KeyError (key : string)
  | TypeError (msg : string)     (* raised by the class constructor only *)
  | ValueError (msg : string).   (* raised by the class constructor only *)

Inductive result (A : Type) : Type :=
  | Return (a : A)
  | Raise (e : exn).
Arguments Return {A} a.
Arguments Raise {A} e.

(** What [__new__] does to its argument [attrs], in the order it does it. *)
Inductive event : Type :=
  | Contains (key : string)      (* key in attrs *)
  | GetItem (key : string).      (* attrs[key] *)

(** The interpreter state: the host's own state (its class objects and
    whatever else [type.__new__] reads or writes), and the accesses to
    [attrs] made so far. *)
Record state (World : Type) : Type := mkState {
  world : World;
  trace : list event
}.
Arguments mkState {World} world trace.
Arguments world {World} s.
Arguments trace {World} s.

Definition log {World} (ev : event) (s : state World) : state World :=
  mkState (world s) (trace s ++ [ev]).

(** Computations that read and write the state and may raise. *)
Definition M (World A : Type) : Type := state World -> result A * state World.

Definition ret {World A} (a : A) : M World A := fun s => (Return a, s).

Definition bind {World A B} (c : M World A) (k : A -> M World B) : M World B :=
  fun s =>
    match c s with
    | (Return a, s') => k a s'
    | (Raise e, s') => (Raise e, s')
    end.

Definition raise {World A} (e : exn) : M World A := fun s => (Raise e, s).

Declare Scope py_scope.
Delimit Scope py_scope with py.
Notation "x <~ c ; k" := (bind c (fun x => k))
  (at level 20, c at level 100, k at level 200, only parsing) : py_scope.
Notation "c ;; k" := (bind c (fun _ => k))
  (at level 100, k at level 200, only parsing, right associativity) : py_scope.
Open Scope py_scope.

(** [key in attrs] *)
Definition contains {World} (key : string) (attrs : Attrs) : M World bool :=
  fun s => (Return (bool_decide (is_Some (attrs !! key))), log (Contains key) s).

(** [attrs[key]]: raises [KeyError] when the key is absent. *)
Definition getitem {World} (attrs : Attrs) (key : string) : M World value :=
  fun s =>
    (match attrs !! key with
     | Some v => Return v
     | None => Raise (KeyError key)
     end, log (GetItem key) s).

(** [not c] *)
Definition not_ {World} (c : M World bool) : M World bool :=
  b <~ c; ret (negb b).

(** [a or b]: [b] is evaluated only when [a] is false. *)
Definition or_ {World} (a b : M World bool) : M World bool :=
  x <~ a; if x then ret true else b.

(** [if c: body] *)
Definition if_ {World} (c : M World bool) (body : M World unit) : M World unit :=
  b <~ c; if b then body else ret tt.

(** [super(MetaAlgorithm, cls).__new__(cls, clsname, bases, attrs)], that is
    [type.__new__]: the host's class constructor.  It is given, not defined
    in the notebooks: [type_new] stands for it, [World] for the state it
    works on and [R] for the class objects it makes.  It may return a class
    or raise (a [TypeError] for bases it cannot combine, a [ValueError], an
    exception of a hook it runs), and what it returns or raises is what
    [__new__] returns or raises.  It does not touch the trace of accesses
    to [attrs]. *)
Definition super_new {World Class R : Type}
    (type_new : Class -> string -> list Class -> Attrs -> World -> result R * World)
    (cls : Class) (clsname : string) (bases : list Class) (attrs : Attrs)
    : M World R :=
  fun s =>
    let (r, w) := type_new cls clsname bases attrs (world s) in
    (r, mkState w (trace s)).

(** ** [MetaAlgorithm.__new__], first notebook (src/unnamed/part_000) *)

Module Part000.
Module MetaAlgorithm.
Section Host.
Context {World Class R : Type}.
Variable type_new :
  Class -> string -> list Class -> Attrs -> World -> result R * World.

Definition __new__ (cls : Class) (clsname : string)
    (bases : list Class) (attrs : Attrs) : M World R :=
  (if negb (String.eqb clsname "Algorithm") then
     if_ (or_ (not_ (contains "contributor" attrs))
              (not_ (v <~ getitem attrs "contributor"; ret (isinstance v str))))
         (raise (RuntimeError "missing contributor")) ;;
     if_ (or_ (not_ (contains "train" attrs))
              (not_ (v <~ getitem attrs "train"; ret (isinstance v FunctionType))))
         (raise (RuntimeError "missing training method")) ;;
     if_ (or_ (not_ (contains "classify" attrs))
              (not_ (v <~ getitem attrs "classify"; ret (isinstance v FunctionType))))
         (raise (RuntimeError "missing classification method"))
   else ret tt) ;;
  super_new type_new cls clsname bases attrs.

End Host.
End MetaAlgorithm.
End Part000.

(** ** [MetaAlgorithm.__new__], second notebook
    (src/static-checking-via-metaclasses.ipynb) *)

Module Notebook.
Module MetaAlgorithm.
Section Host.
Context {World Class R : Type}.
Variable type_new :
  Class -> string -> list Class -> Attrs -> World -> result R * World.

Definition __new__ (cls : Class) (clsname : string)
    (bases : list Class) (attrs : Attrs) : M World R :=
  (if negb (String.eqb clsname "Algorithm") then
     if_ (or_ (not_ (contains "contributor" attrs))
              (not_ (v <~ getitem attrs "contributor"; ret (isinstance v str))))
         (raise (RuntimeError "missing contributor information")) ;;
     if_ (or_ (not_ (contains "train" attrs))
              (not_ (v <~ getitem attrs "train"; ret (isinstance v FunctionType))))
         (raise (RuntimeError "missing training method")) ;;
     if_ (or_ (not_ (contains "classify" attrs))
              (not_ (v <~ getitem attrs "classify"; ret (isinstance v FunctionType))))
         (raise (RuntimeError "missing classification method"))
   else ret tt) ;;
  super_new type_new cls clsname bases attrs.

End Host.
End MetaAlgorithm.
End Notebook.

(** ** Vocabulary of the specification *)

(** The three failure kinds the specification names. *)
Inductive failure_kind : Type :=
  | MissingContributor
  | MissingTrainMethod
  | MissingClassifyMethod.

(** Which failure kind an exception stands for.  The two notebooks word
    the first message differently. *)
Definition failure_kind_of (e : exn) : option failure_kind :=
  match e with
  | RuntimeError msg =>
      if String.eqb msg "missing contributor"
         || String.eqb msg "missing contributor information"
      then Some MissingContributor
      else if String.eqb msg "missing training method"
      then Some MissingTrainMethod
      else if String.eqb msg "missing classification method"
      then Some MissingClassifyMethod
      else None
  | _ => None
  end.

(** [attrs] has [key], and its value is an instance of [ty]: what one rule
    of [__new__] asks for. *)
Definition conforms (attrs : Attrs) (key : string) (ty : pytype) : bool :=
  match attrs !! key with
  | Some v => isinstance v ty
  | None => false
  end.

(** The accesses to [attrs] that evaluating one rule makes: the membership
    test, then the subscript when the key is there. *)
Definition accesses (attrs : Attrs) (key : string) : list event :=
  Contains key ::
  match attrs !! key with
  | Some _ => [GetItem key]
  | None => []
  end.

(** The rules in the order of the specification (4.1): the key and the
    type asked of its value, with the failure kind. *)
Definition rules : list (string * pytype * failure_kind) :=
  [ ("contributor", str, MissingContributor);
    ("train", FunctionType, MissingTrainMethod);
    ("classify", FunctionType, MissingClassifyMethod) ].

Definition rule_holds (attrs : Attrs) (r : string * pytype * failure_kind) : bool :=
  conforms attrs r.1.1 r.1.2.

(** The key an access is about. *)
Definition key_of (ev : event) : string :=
  match ev with
  | Contains key => key
  | GetItem key => key
  end.

(** Applying a list of rules in order and stopping at the first one that
    fails: the failure kind, if any, and the accesses made, after [seen]. *)
Fixpoint first_failure (rs : list (string * pytype * failure_kind))
    (attrs : Attrs) (seen : list event) : option failure_kind * list event :=
  match rs with
  | [] => (None, seen)
  | r :: rs' =>
      if rule_holds attrs r
      then first_failure rs' attrs (seen ++ accesses attrs r.1.1)
      else (Some r.2, seen ++ accesses attrs r.1.1)
  end.

(** The messages of the [raise] statements of each notebook. *)
Definition message_part000 (k : failure_kind) : string :=
  match k with
  | MissingContributor => "missing contributor"
  | MissingTrainMethod => "missing training method"
  | MissingClassifyMethod => "missing classification method"
  end.

Definition message_notebook (k : failure_kind) : string :=
  match k with
  | MissingContributor => "missing contributor information"
  | MissingTrainMethod => "missing training method"
  | MissingClassifyMethod => "missing classification method"
  end.

(** The validator in the words of the specification (4.1): the root name
    is exempt; otherwise the rules are applied in order, the first failing
    one aborts with its error, and when none fails the class constructor is
    called. *)
Definition validator_spec {World Class R : Type}
    (message : failure_kind -> string)
    (type_new : Class -> string -> list Class -> Attrs -> World -> result R * World)
    (cls : Class) (clsname : string) (bases : list Class) (attrs : Attrs)
    : M World R :=
  fun s =>
    if String.eqb clsname "Algorithm"
    then super_new type_new cls clsname bases attrs s
    else
      match first_failure rules attrs (trace s) with
      | (Some k, t) => (Raise (RuntimeError (message k)), mkState (world s) t)
      | (None, t) =>
          super_new type_new cls clsname bases attrs (mkState (world s) t)
      end.

(** The outcome of a run with the produced object forgotten: [None] when
    the class was accepted, the exception when it was rejected. *)
Definition outcome {A} (r : result A) : option exn :=
  match r with
  | Return _ => None
  | Raise e => Some e
  end.

(** ** A definition attempt (specification 4.1, state machine) *)

Section Attempt.
Context {World Class R : Type}.

(** Either version of [__new__]. *)
Variable new : Class -> string -> list Class -> Attrs -> M World R.

Inductive phase : Type :=
  | Unvalidated (cls : Class) (clsname : string) (bases : list Class)
                (attrs : Attrs)
  | Validated (descriptor : R)
  | Rejected (e : exn).

(** The only step of an attempt is the call of the metaclass.  Nothing in
    the notebooks catches the exception and tries again: the [try] around
    the failing definition only prints the message. *)
Inductive step : phase * state World -> phase * state World -> Prop :=
  | step_Validated cls clsname bases attrs s d s' :
      new cls clsname bases attrs s = (Return d, s') ->
      step (Unvalidated cls clsname bases attrs, s) (Validated d, s')
  | step_Rejected cls clsname bases attrs s e s' :
      new cls clsname bases attrs s = (Raise e, s') ->
      step (Unvalidated cls clsname bases attrs, s) (Rejected e, s').

(** The class that instances can be made of, once there is one. *)
Definition constructible (p : phase) : option R :=
  match p with
  | Validated d => Some d
  | _ => None
  end.

(** Validating the same definition [n] times in a row, each run starting
    in the state the run before left: the outcomes, and the last state. *)
Fixpoint revalidate (n : nat) (cls : Class) (clsname : string)
    (bases : list Class) (attrs : Attrs) (s : state World)
    : list (option exn) * state World :=
  match n with
  | O => ([], s)
  | S n' =>
      let (r, s') := new cls clsname bases attrs s in
      let (os, s'') := revalidate n' cls clsname bases attrs s' in
      (outcome r :: os, s'')
  end.

End Attempt.

Arguments Unvalidated {Class R} cls clsname bases attrs.
Arguments Validated {Class R} descriptor.
Arguments Rejected {Class R} e.

(** ** The class constructor of the specification *)

(** Modelled from the spec: the underlying class-descriptor constructor
    ([type.__new__] belongs to the host language and is in neither
    notebook).  Section 3: a Class Descriptor is a name, an ordered sequence
    of parent descriptors and an attribute table; the process keeps a
    registry of the defined types. *)
Inductive ClassDescriptor : Type :=
  mkClass (name : string) (bases : list ClassDescriptor) (attribute_table : Attrs).

Definition cd_name (d : ClassDescriptor) : string :=
  match d with mkClass n _ _ => n end.
Definition cd_bases (d : ClassDescriptor) : list ClassDescriptor :=
  match d with mkClass _ b _ => b end.
Definition cd_attrs (d : ClassDescriptor) : Attrs :=
  match d with mkClass _ _ a => a end.

(** Modelled from the spec: constructing a descriptor records the name, the
    bases and the attribute table as they are, and enters the descriptor in
    the registry. *)
Definition construct (cls : ClassDescriptor) (clsname : string)
    (bases : list ClassDescriptor) (attrs : Attrs)
    (registry : list ClassDescriptor)
    : result ClassDescriptor * list ClassDescriptor :=
  (Return (mkClass clsname bases attrs),
   registry ++ [mkClass clsname bases attrs]).

(** A constructor that, as CPython's [type.__new__] does, refuses a tuple
    of bases that lists a class twice ([TypeError: duplicate base class];
    classes are told apart by their names here) and leaves the registry
    alone then, and otherwise constructs as above. *)
Definition construct_strict (cls : ClassDescriptor) (clsname : string)
    (bases : list ClassDescriptor) (attrs : Attrs)
    (registry : list ClassDescriptor)
    : result ClassDescriptor * list ClassDescriptor :=
  if bool_decide (NoDup (cd_name <$> bases))
  then construct cls clsname bases attrs registry
  else (Raise (TypeError "duplicate base class"), registry).

(** ** Objects of the notebooks' examples *)

Definition type_ : ClassDescriptor := mkClass "type" [] ∅.
Definition MetaAlgorithm : ClassDescriptor := mkClass "MetaAlgorithm" [type_] ∅.
Definition Algorithm : ClassDescriptor := mkClass "Algorithm" [] ∅.

(** The body of the conforming [class Guess(Algorithm)]. *)
Definition Guess_attrs : Attrs :=
  <["contributor" := VStr "Author"]>
  (<["train" := VFunction "Guess.train"]>
  (<["classify" := VFunction "Guess.classify"]> ∅)).

(** The body of the failing [class Guess(Algorithm)]: only [classify]. *)
Definition Guess_attrs_bad : Attrs :=
  <["classify" := VFunction "Guess.classify"]> ∅.

Definition s0 : state (list ClassDescriptor) := mkState [] [].

(** ** What a run decides and reads *)

(** What passes the validator: the root name, or a namespace in which all
    three rules hold. *)
Definition passes (clsname : string) (attrs : Attrs) : bool :=
  String.eqb clsname "Algorithm"
  || (conforms attrs "contributor" str
      && conforms attrs "train" FunctionType
      && conforms attrs "classify" FunctionType).

(** The three keys the rules are about. *)
Definition rule_keys : list string := ["contributor"; "train"; "classify"].

(** The accesses to [attrs] a run makes: none for the root name, otherwise
    those of the rules up to the first that fails. *)
Definition run_accesses (clsname : string) (attrs : Attrs) : list event :=
  if String.eqb clsname "Algorithm" then []
  else (first_failure rules attrs []).2.

(** ** How one rule of [__new__] runs *)

Section Validator.
Context {World Class R : Type}.
Variable type_new :
  Class -> string -> list Class -> Attrs -> World -> result R * World.

Lemma bind_run {A B} (c : M World A) (k : A -> M World B) (s : state World) :
  bind c k s
  = match c s with
    | (Return a, s') => k a s'
    | (Raise e, s') => (Raise e, s')
    end.
Proof. reflexivity. Qed.

(** One [if key not in attrs or not isinstance(attrs[key], ty): raise e]:
    it raises exactly when the rule does not hold, leaves the host state
    alone, and subscripts [attrs] only when the key is there. *)
Lemma rule_run (attrs : Attrs) (key : string) (ty : pytype) (e : exn)
    (s : state World) :
  if_ (or_ (not_ (contains key attrs))
           (not_ (v <~ getitem attrs key; ret (isinstance v ty))))
      (raise e) s
  = (if conforms attrs key ty then Return tt else Raise e,
     mkState (world s) (trace s ++ accesses attrs key)).
Proof.
  unfold if_, or_, not_, bind, contains, getitem, ret, raise, conforms, accesses, log.
  destruct (attrs !! key) as [v|] eqn:Hk; simpl.
  - rewrite <- app_assoc. simpl.
    destruct (isinstance v ty); reflexivity.
  - reflexivity.
Qed.

(** No rule ever raises [KeyError]: the subscript is guarded by the
    membership test. *)
Lemma rule_run_no_KeyError (attrs : Attrs) (key : string) (ty : pytype)
    (msg k : string) (s : state World) :
  (if_ (or_ (not_ (contains key attrs))
            (not_ (v <~ getitem attrs key; ret (isinstance v ty))))
       (raise (RuntimeError msg)) s).1 <> Raise (KeyError k).
Proof. rewrite rule_run. simpl. by destruct (conforms attrs key ty). Qed.

(** Both versions of [__new__] do what the specification describes, each
    with its own messages. *)
Lemma Part000_refines cls clsname bases attrs (s : state World) :
  Part000.MetaAlgorithm.__new__ type_new cls clsname bases attrs s
  = validator_spec message_part000 type_new cls clsname bases attrs s.
Proof.
  unfold Part000.MetaAlgorithm.__new__, validator_spec.
  destruct (String.eqb clsname "Algorithm"); cbn [negb].
  - reflexivity.
  - unfold rules, first_failure, rule_holds. cbn [fst snd].
    rewrite 2!bind_run, rule_run.
    destruct (conforms attrs "contributor" str); [|reflexivity].
    cbv beta iota. rewrite bind_run, rule_run.
    destruct (conforms attrs "train" FunctionType); [|reflexivity].
    cbv beta iota. rewrite rule_run.
    destruct (conforms attrs "classify" FunctionType); reflexivity.
Qed.

Lemma Notebook_refines cls clsname bases attrs (s : state World) :
  Notebook.MetaAlgorithm.__new__ type_new cls clsname bases attrs s
  = validator_spec message_notebook type_new cls clsname bases attrs s.
Proof.
  unfold Notebook.MetaAlgorithm.__new__, validator_spec.
  destruct (String.eqb clsname "Algorithm"); cbn [negb].
  - reflexivity.
  - unfold rules, first_failure, rule_holds. cbn [fst snd].
    rewrite 2!bind_run, rule_run.
    destruct (conforms attrs "contributor" str); [|reflexivity].
    cbv beta iota. rewrite bind_run, rule_run.
    destruct (conforms attrs "train" FunctionType); [|reflexivity].
    cbv beta iota. rewrite rule_run.
    destruct (conforms attrs "classify" FunctionType); reflexivity.
Qed.

End Validator.

(** ** Properties of the validator of the specification *)

Section Spec.
Context {World Class R : Type}.
Variable type_new :
  Class -> string -> list Class -> Attrs -> World -> result R * World.
Variable message : failure_kind -> string.

Lemma super_new_run cls clsname bases attrs (s : state World) :
  super_new type_new cls clsname bases attrs s
  = ((type_new cls clsname bases attrs (world s)).1,
     mkState (type_new cls clsname bases attrs (world s)).2 (trace s)).
Proof.
  unfold super_new. by destruct (type_new cls clsname bases attrs (world s)).
Qed.

Lemma spec_root cls bases attrs (s : state World) :
  validator_spec message type_new cls "Algorithm" bases attrs s
  = super_new type_new cls "Algorithm" bases attrs s.
Proof. reflexivity. Qed.

Lemma spec_not_root cls clsname bases attrs (s : state World) :
  clsname <> "Algorithm" ->
  validator_spec message type_new cls clsname bases attrs s
  = match first_failure rules attrs (trace s) with
    | (Some k, t) => (Raise (RuntimeError (message k)), mkState (world s) t)
    | (None, t) =>
        super_new type_new cls clsname bases attrs (mkState (world s) t)
    end.
Proof.
  intros Hne. unfold validator_spec.
  by rewrite (proj2 (String.eqb_neq clsname "Algorithm") Hne).
Qed.

(** Which rule fails first does not depend on what was accessed before. *)
Lemma first_failure_kind rs attrs seen :
  (first_failure rs attrs seen).1 = (first_failure rs attrs []).1.
Proof.
  revert seen. induction rs as [|r rs IH]; intros seen; cbn [first_failure].
  - reflexivity.
  - destruct (rule_holds attrs r); [|reflexivity].
    rewrite (IH (seen ++ _)), (IH ([] ++ _)). reflexivity.
Qed.

Lemma passes_not_root clsname attrs :
  String.eqb clsname "Algorithm" = false ->
  passes clsname attrs
  = rule_holds attrs ("contributor", str, MissingContributor)
    && rule_holds attrs ("train", FunctionType, MissingTrainMethod)
    && rule_holds attrs ("classify", FunctionType, MissingClassifyMethod).
Proof. intros Hne. unfold passes, rule_holds. by rewrite Hne. Qed.

Lemma first_failure_trace rs attrs seen :
  (first_failure rs attrs seen).2 = seen ++ (first_failure rs attrs []).2.
Proof.
  revert seen. induction rs as [|r rs IH]; intros seen; cbn [first_failure].
  - by rewrite app_nil_r.
  - destruct (rule_holds attrs r); [|reflexivity].
    rewrite (IH (seen ++ _)), (IH ([] ++ _)). cbn [app snd].
    by rewrite app_assoc.
Qed.

(** A run on a definition that passes: the class constructor is called in
    the host state as it was, and its outcome is the outcome. *)
Lemma spec_run_passes cls clsname bases attrs (s : state World) :
  passes clsname attrs = true ->
  validator_spec message type_new cls clsname bases attrs s
  = ((type_new cls clsname bases attrs (world s)).1,
     mkState (type_new cls clsname bases attrs (world s)).2
             (trace s ++ run_accesses clsname attrs)).
Proof.
  unfold validator_spec, run_accesses.
  destruct (String.eqb clsname "Algorithm") eqn:Hroot.
  - intros _. by rewrite super_new_run, app_nil_r.
  - rewrite (passes_not_root _ _ Hroot). intros Hpass.
    pose proof (first_failure_trace rules attrs (trace s)) as Ht.
    pose proof (first_failure_kind rules attrs (trace s)) as Hk.
    destruct (first_failure rules attrs (trace s)) as [o t].
    cbn [fst snd] in Ht, Hk. subst t. rewrite Hk.
    unfold rules. cbn [first_failure].
    apply andb_prop in Hpass as [[H1 H2]%andb_prop H3].
    rewrite H1, H2, H3. cbn [fst]. by rewrite super_new_run.
Qed.

(** A run on a definition that does not pass. *)
Lemma spec_run_fails cls clsname bases attrs (s : state World) :
  passes clsname attrs = false ->
  exists k,
    (first_failure rules attrs []).1 = Some k
    /\ validator_spec message type_new cls clsname bases attrs s
       = (Raise (RuntimeError (message k)),
          mkState (world s) (trace s ++ run_accesses clsname attrs))
    /\ (k = MissingContributor <-> conforms attrs "contributor" str = false).
Proof.
  unfold validator_spec, run_accesses.
  destruct (String.eqb clsname "Algorithm") eqn:Hroot.
  - unfold passes. by rewrite Hroot.
  - rewrite (passes_not_root _ _ Hroot). intros Hpass.
    pose proof (first_failure_trace rules attrs (trace s)) as Ht.
    pose proof (first_failure_kind rules attrs (trace s)) as Hk.
    destruct (first_failure rules attrs (trace s)) as [o t].
    cbn [fst snd] in Ht, Hk. subst t. rewrite Hk.
    revert Hpass. unfold rules, rule_holds. cbn [first_failure fst snd].
    unfold rule_holds. cbn [fst snd].
    destruct (conforms attrs "contributor" str);
      destruct (conforms attrs "train" FunctionType);
      destruct (conforms attrs "classify" FunctionType);
      cbn [andb fst]; intros Hpass; try discriminate;
      eexists; (split; [reflexivity | split; [reflexivity | split; congruence]]).
Qed.

(** The accesses of a run, whichever way it goes. *)
Lemma spec_trace cls clsname bases attrs (s : state World) :
  trace (validator_spec message type_new cls clsname bases attrs s).2
  = trace s ++ run_accesses clsname attrs.
Proof.
  destruct (passes clsname attrs) eqn:Hpass.
  - by rewrite spec_run_passes.
  - destruct (spec_run_fails cls clsname bases attrs s Hpass)
      as (k & _ & -> & _). reflexivity.
Qed.

Lemma conforms_agree attrs attrs' key ty :
  attrs !! key = attrs' !! key -> conforms attrs key ty = conforms attrs' key ty.
Proof. unfold conforms. by intros ->. Qed.

Lemma accesses_agree attrs attrs' key :
  attrs !! key = attrs' !! key -> accesses attrs key = accesses attrs' key.
Proof. unfold accesses. by intros ->. Qed.

Lemma conforms_str attrs key :
  conforms attrs key str = true <-> exists c, attrs !! key = Some (VStr c).
Proof.
  unfold conforms. split.
  - destruct (attrs !! key) as [[]|]; try discriminate. eauto.
  - by intros [c ->].
Qed.

Lemma conforms_FunctionType attrs key :
  conforms attrs key FunctionType = true
  <-> exists f, attrs !! key = Some (VFunction f).
Proof.
  unfold conforms. split.
  - destruct (attrs !! key) as [[]|]; try discriminate. eauto.
  - by intros [f ->].
Qed.

(** What a run reads of [attrs]. *)
Lemma run_accesses_shape clsname attrs :
  (forall i key, run_accesses clsname attrs !! i = Some (GetItem key) ->
     is_Some (attrs !! key) /\
     exists j, i = S j /\ run_accesses clsname attrs !! j = Some (Contains key))
  /\ Forall (fun ev => key_of ev ∈ rule_keys) (run_accesses clsname attrs)
  /\ length (run_accesses clsname attrs) <= 6.
Proof.
  unfold run_accesses.
  destruct (String.eqb clsname "Algorithm").
  { split; [|split]; [|constructor|cbn; lia].
    intros i key Hi. by rewrite lookup_nil in Hi. }
  unfold rules, first_failure, rule_holds, conforms, accesses, rule_keys.
  cbn [fst snd app].
  destruct (attrs !! "contributor") as [v1|] eqn:H1;
    [destruct (isinstance v1 str)|];
    (destruct (attrs !! "train") as [v2|] eqn:H2;
      [destruct (isinstance v2 FunctionType)|]);
    (destruct (attrs !! "classify") as [v3|] eqn:H3;
      [destruct (isinstance v3 FunctionType)|]);
    cbn [app snd];
    (split; [|split]);
    try (cbn; lia);
    try (repeat constructor; set_solver);
    intros [|[|[|[|[|[|i]]]]]] key Hi; simplify_eq/=; split; eauto.
Qed.

End Spec.

(** ** The claims of the specification *)

Section Claims.
Context {World Class R : Type}.
Variable type_new :
  Class -> string -> list Class -> Attrs -> World -> result R * World.

(** C1 (as amended). A definition named [Algorithm] is exempt: whatever
    [attrs] and [bases] are, no rule is evaluated ([attrs] is not accessed:
    the trace is as before), none of the three errors is raised, and both
    versions of [__new__] hand the arguments to the class constructor in
    the host state as it was.  The outcome is the constructor's own: the
    class it returns, or the exception it raises. *)
Theorem C1_root_exempt cls bases attrs (s : state World) :
  Part000.MetaAlgorithm.__new__ type_new cls "Algorithm" bases attrs s
  = ((type_new cls "Algorithm" bases attrs (world s)).1,
     mkState (type_new cls "Algorithm" bases attrs (world s)).2 (trace s))
  /\
  Notebook.MetaAlgorithm.__new__ type_new cls "Algorithm" bases attrs s
  = ((type_new cls "Algorithm" bases attrs (world s)).1,
     mkState (type_new cls "Algorithm" bases attrs (world s)).2 (trace s)).
Proof.
  rewrite Part000_refines, Notebook_refines, !spec_root, !super_new_run.
  split; reflexivity.
Qed.

(** C2. A definition not named [Algorithm] whose [attrs] has no
    [contributor], or a [contributor] that is not a string, is rejected with
    the MissingContributor error; the class constructor is not run (the
    host state is as before). *)
Theorem C2_missing_contributor cls clsname bases attrs (s : state World) :
  clsname <> "Algorithm" ->
  (attrs !! "contributor" = None \/
   exists v, attrs !! "contributor" = Some v /\ isinstance v str = false) ->
  (Part000.MetaAlgorithm.__new__ type_new cls clsname bases attrs s
   = (Raise (RuntimeError "missing contributor"),
      mkState (world s) (trace s ++ accesses attrs "contributor"))
   /\ failure_kind_of (RuntimeError "missing contributor")
      = Some MissingContributor)
  /\
  (Notebook.MetaAlgorithm.__new__ type_new cls clsname bases attrs s
   = (Raise (RuntimeError "missing contributor information"),
      mkState (world s) (trace s ++ accesses attrs "contributor"))
   /\ failure_kind_of (RuntimeError "missing contributor information")
      = Some MissingContributor).
Proof.
  intros Hne Hc.
  assert (rule_holds attrs ("contributor", str, MissingContributor) = false) as Hr.
  { unfold rule_holds, conforms. cbn [fst snd].
    destruct Hc as [-> | (v & -> & Hv)]; done. }
  rewrite Part000_refines, Notebook_refines, !spec_not_root by done.
  unfold rules. cbn [first_failure]. rewrite Hr. done.
Qed.

(** C3. With a string [contributor], a definition not named [Algorithm]
    whose [attrs] has no [train], or a [train] that is not callable, is
    rejected with the MissingTrainMethod error. *)
Theorem C3_missing_train cls clsname bases attrs (s : state World) c :
  clsname <> "Algorithm" ->
  attrs !! "contributor" = Some c -> isinstance c str = true ->
  (attrs !! "train" = None \/
   exists v, attrs !! "train" = Some v /\ callable v = false) ->
  (Part000.MetaAlgorithm.__new__ type_new cls clsname bases attrs s
   = (Raise (RuntimeError "missing training method"),
      mkState (world s)
        (trace s ++ accesses attrs "contributor" ++ accesses attrs "train"))
   /\
   Notebook.MetaAlgorithm.__new__ type_new cls clsname bases attrs s
   = (Raise (RuntimeError "missing training method"),
      mkState (world s)
        (trace s ++ accesses attrs "contributor" ++ accesses attrs "train")))
  /\ failure_kind_of (RuntimeError "missing training method")
     = Some MissingTrainMethod.
Proof.
  intros Hne Hc Hstr Ht.
  assert (rule_holds attrs ("contributor", str, MissingContributor) = true) as Hr1.
  { unfold rule_holds, conforms. cbn [fst snd]. by rewrite Hc. }
  assert (rule_holds attrs ("train", FunctionType, MissingTrainMethod) = false) as Hr2.
  { unfold rule_holds, conforms. cbn [fst snd].
    destruct Ht as [-> | (v & -> & Hv)]; [done|]. by destruct v. }
  rewrite Part000_refines, Notebook_refines, !spec_not_root by done.
  unfold rules. cbn [first_failure]. rewrite Hr1, Hr2. cbn [fst snd].
  rewrite <- app_assoc. done.
Qed.

(** C4. With a string [contributor] and a [train] that passes the [train]
    rule (a function), a definition not named [Algorithm] whose [attrs] has
    no [classify], or a [classify] that is not callable, is rejected with
    the MissingClassifyMethod error. *)
Theorem C4_missing_classify cls clsname bases attrs (s : state World) c t :
  clsname <> "Algorithm" ->
  attrs !! "contributor" = Some c -> isinstance c str = true ->
  attrs !! "train" = Some t -> isinstance t FunctionType = true ->
  (attrs !! "classify" = None \/
   exists v, attrs !! "classify" = Some v /\ callable v = false) ->
  (Part000.MetaAlgorithm.__new__ type_new cls clsname bases attrs s
   = (Raise (RuntimeError "missing classification method"),
      mkState (world s)
        (trace s ++ accesses attrs "contributor" ++ accesses attrs "train"
                 ++ accesses attrs "classify"))
   /\
   Notebook.MetaAlgorithm.__new__ type_new cls clsname bases attrs s
   = (Raise (RuntimeError "missing classification method"),
      mkState (world s)
        (trace s ++ accesses attrs "contributor" ++ accesses attrs "train"
                 ++ accesses attrs "classify")))
  /\ failure_kind_of (RuntimeError "missing classification method")
     = Some MissingClassifyMethod.
Proof.
  intros Hne Hc Hstr Ht Hfun Hcl.
  assert (rule_holds attrs ("contributor", str, MissingContributor) = true) as Hr1.
  { unfold rule_holds, conforms. cbn [fst snd]. by rewrite Hc. }
  assert (rule_holds attrs ("train", FunctionType, MissingTrainMethod) = true) as Hr2.
  { unfold rule_holds, conforms. cbn [fst snd]. by rewrite Ht. }
  assert (rule_holds attrs ("classify", FunctionType, MissingClassifyMethod) = false) as Hr3.
  { unfold rule_holds, conforms. cbn [fst snd].
    destruct Hcl as [-> | (v & -> & Hv)]; [done|]. by destruct v. }
  rewrite Part000_refines, Notebook_refines, !spec_not_root by done.
  unfold rules. cbn [first_failure]. rewrite Hr1, Hr2, Hr3. cbn [fst snd].
  rewrite <- !app_assoc. done.
Qed.

(** An access made for a rule is about that rule's key. *)
Lemma key_of_accesses attrs key ev :
  ev ∈ accesses attrs key -> key_of ev = key.
Proof.
  unfold accesses. destruct (attrs !! key).
  - rewrite !elem_of_cons, elem_of_nil. by intros [-> | [-> | []]].
  - rewrite elem_of_cons, elem_of_nil. by intros [-> | []].
Qed.

(** C5. For a definition not named [Algorithm], the rules are applied in
    the order contributor, train, classify.  Split the rules at the first
    one that fails, [rules = pre ++ r :: post]: the definition is rejected
    with the error of [r], the accesses to [attrs] are exactly those of the
    rules of [pre] and of [r], in that order, and none is about a key of a
    rule of [post]: the remaining rules are not evaluated. *)
Theorem C5_first_failing_rule cls clsname bases attrs (s : state World)
    pre r post :
  clsname <> "Algorithm" ->
  rules = pre ++ r :: post ->
  Forall (fun r' => rule_holds attrs r' = true) pre ->
  rule_holds attrs r = false ->
  (Part000.MetaAlgorithm.__new__ type_new cls clsname bases attrs s
   = (Raise (RuntimeError (message_part000 r.2)),
      mkState (world s)
        (trace s ++ concat (map (fun r' => accesses attrs r'.1.1) (pre ++ [r]))))
   /\ failure_kind_of (RuntimeError (message_part000 r.2)) = Some r.2)
  /\
  (Notebook.MetaAlgorithm.__new__ type_new cls clsname bases attrs s
   = (Raise (RuntimeError (message_notebook r.2)),
      mkState (world s)
        (trace s ++ concat (map (fun r' => accesses attrs r'.1.1) (pre ++ [r]))))
   /\ failure_kind_of (RuntimeError (message_notebook r.2)) = Some r.2)
  /\
  Forall (fun r' =>
            forall ev,
              ev ∈ concat (map (fun r' => accesses attrs r'.1.1) (pre ++ [r])) ->
              key_of ev <> r'.1.1) post.
Proof.
  intros Hne Hsplit Hpre Hr.
  rewrite Part000_refines, Notebook_refines, !spec_not_root by done.
  unfold rules in *.
  destruct pre as [|p1 [|p2 [|p3 pre]]]; cbn [app] in Hsplit; simplify_eq;
    cbn [first_failure app map concat fst snd].
  - rewrite Hr. cbn [fst snd]. rewrite app_nil_r.
    repeat split; try done.
    repeat apply Forall_cons_2; [| |apply Forall_nil_2];
      intros ev Hev%key_of_accesses; by rewrite Hev.
  - apply Forall_cons in Hpre as [Hp1 _].
    rewrite Hp1, Hr. cbn [fst snd]. rewrite app_nil_r, <- app_assoc.
    repeat split; try done.
    repeat apply Forall_cons_2; [|apply Forall_nil_2].
    intros ev [Hev%key_of_accesses | Hev%key_of_accesses]%elem_of_app;
      by rewrite Hev.
  - apply Forall_cons in Hpre as [Hp1 [Hp2 _]%Forall_cons].
    rewrite Hp1, Hp2, Hr. cbn [fst snd]. rewrite app_nil_r, <- !app_assoc.
    repeat split; try done.
  - by destruct pre.
Qed.

(** An attempt that a version of [__new__] rejects can only end rejected. *)
Lemma rejected_is_stuck (new : Class -> string -> list Class -> Attrs -> M World R)
    e (s : state World) q :
  rtc (step new) (Rejected e, s) q -> q = (Rejected e, s).
Proof.
  intros Hrtc. apply rtc_inv in Hrtc as [<- | (y & Hstep & _)]; [done|].
  inversion Hstep.
Qed.

(** C7. When a definition fails validation, the class constructor has not
    run (the host state is as before: no class object was made).  Whenever
    [__new__] raises, no state the attempt can reach has a class to make
    instances of, and the rejected attempt has no further step: it stays
    rejected.  An exception for a definition that passes the rules is the
    constructor's own. *)
Theorem C7_rejected_is_terminal
    (new : Class -> string -> list Class -> Attrs -> M World R)
    cls clsname bases attrs (s s' : state World) e :
  (new = Part000.MetaAlgorithm.__new__ type_new \/
   new = Notebook.MetaAlgorithm.__new__ type_new) ->
  step new (Unvalidated cls clsname bases attrs, s) (Rejected e, s') ->
  (passes clsname attrs = false -> world s' = world s)
  /\ (passes clsname attrs = true ->
      type_new cls clsname bases attrs (world s) = (Raise e, world s'))
  /\ (forall q, rtc (step new) (Unvalidated cls clsname bases attrs, s) q ->
                constructible q.1 = None)
  /\ (forall q, ~ step new (Rejected e, s') q)
  /\ (forall q, rtc (step new) (Rejected e, s') q -> q = (Rejected e, s')).
Proof.
  intros Hnew Hstep. inversion Hstep as [|? ? ? ? ? ? ? Hrun]; subst.
  assert (exists message,
             validator_spec message type_new cls clsname bases attrs s
             = (Raise e, s')) as [message Hspec].
  { destruct Hnew as [-> | ->].
    - exists message_part000. by rewrite <- Part000_refines.
    - exists message_notebook. by rewrite <- Notebook_refines. }
  split; [|split; [|split; [|split]]].
  - intros Hp.
    destruct (spec_run_fails type_new message cls clsname bases attrs s Hp)
      as (k & _ & Hk & _).
    rewrite Hk in Hspec. by injection Hspec as _ <-.
  - intros Hp. rewrite spec_run_passes in Hspec by done.
    destruct (type_new cls clsname bases attrs (world s)) as [r w].
    cbn [fst snd] in Hspec. by injection Hspec as -> <-.
  - intros q Hrtc. apply rtc_inv in Hrtc as [<- | (y & Hy & Hrest)]; [done|].
    inversion Hy as [? ? ? ? ? ? ? Hrun'|? ? ? ? ? ? ? Hrun']; subst.
    + rewrite Hrun in Hrun'. discriminate.
    + by apply rejected_is_stuck in Hrest as ->.
  - intros q Hq. inversion Hq.
  - intros q. apply rejected_is_stuck.
Qed.

(** The outcomes of [n] runs in a row, when the outcome of a run is the
    same in every state. *)
Lemma revalidate_replicate
    (new : Class -> string -> list Class -> Attrs -> M World R)
    cls clsname bases attrs o :
  (forall s, outcome (new cls clsname bases attrs s).1 = o) ->
  forall n s, (revalidate new n cls clsname bases attrs s).1 = replicate n o.
Proof.
  intros Hnew n. induction n as [|n IH]; intros s; cbn [revalidate replicate].
  - reflexivity.
  - specialize (Hnew s). destruct (new cls clsname bases attrs s) as [r s1].
    specialize (IH s1).
    destruct (revalidate new n cls clsname bases attrs s1) as [os s2].
    cbn [fst] in *. by rewrite Hnew, IH.
Qed.

(** Either version of [__new__] is the validator of the specification with
    some messages. *)
Lemma either_version (new : Class -> string -> list Class -> Attrs -> M World R) :
  (new = Part000.MetaAlgorithm.__new__ type_new \/
   new = Notebook.MetaAlgorithm.__new__ type_new) ->
  exists message, forall cls clsname bases attrs s,
    new cls clsname bases attrs s
    = validator_spec message type_new cls clsname bases attrs s.
Proof.
  intros [-> | ->].
  - exists message_part000. intros. apply Part000_refines.
  - exists message_notebook. intros. apply Notebook_refines.
Qed.

(** C8. Validation is deterministic and idempotent: the decision is the
    same in every state.  A definition that fails a rule gets, in [n] runs
    in a row from any state [s'], [n] times the exception of one run from
    any other state [s].  A definition that passes is handed, in every
    state, to the class constructor, whose outcome is then the outcome; so
    with a constructor that never raises, the [n] runs all have the
    outcome of the one run, whatever the definition is. *)
Theorem C8_same_outcome_every_time
    (new : Class -> string -> list Class -> Attrs -> M World R)
    cls clsname bases attrs (s s' : state World) (n : nat) :
  (new = Part000.MetaAlgorithm.__new__ type_new \/
   new = Notebook.MetaAlgorithm.__new__ type_new) ->
  (passes clsname attrs = false ->
   (revalidate new n cls clsname bases attrs s').1
   = replicate n (outcome (new cls clsname bases attrs s).1))
  /\
  (passes clsname attrs = true ->
   forall s1,
     new cls clsname bases attrs s1
     = super_new type_new cls clsname bases attrs
         (mkState (world s1) (trace s1 ++ run_accesses clsname attrs)))
  /\
  ((forall c nm b a w, exists r w', type_new c nm b a w = (Return r, w')) ->
   (revalidate new n cls clsname bases attrs s').1
   = replicate n (outcome (new cls clsname bases attrs s).1)).
Proof.
  intros [message Hspec]%either_version.
  assert (passes clsname attrs = false ->
          forall s1, outcome (new cls clsname bases attrs s1).1
                     = outcome (new cls clsname bases attrs s).1) as Hfail.
  { intros Hp s1. rewrite !Hspec.
    destruct (spec_run_fails type_new message cls clsname bases attrs s1 Hp)
      as (k1 & Hk1 & -> & _).
    destruct (spec_run_fails type_new message cls clsname bases attrs s Hp)
      as (k & Hk & -> & _).
    by simplify_eq. }
  split; [|split].
  - intros Hp. apply revalidate_replicate. by apply Hfail.
  - intros Hp s1. by rewrite Hspec, spec_run_passes, super_new_run.
  - intros Htotal. apply revalidate_replicate. intros s1.
    destruct (passes clsname attrs) eqn:Hp; [|by apply Hfail].
    rewrite !Hspec, !spec_run_passes by done.
    destruct (Htotal cls clsname bases attrs (world s1)) as (r1 & w1 & ->).
    destruct (Htotal cls clsname bases attrs (world s)) as (r & w & ->).
    reflexivity.
Qed.

(** The messages of both notebooks stand for the failure kind they are
    raised for. *)
Lemma failure_kind_of_message k :
  failure_kind_of (RuntimeError (message_part000 k)) = Some k
  /\ failure_kind_of (RuntimeError (message_notebook k)) = Some k.
Proof. by destruct k. Qed.

(** C9. The two versions of [__new__] agree on every input: either both
    return the same object and leave the same state, or both raise, in the
    same state, exceptions of the same failure kind, or both raise, in the
    same state, the exception the class constructor raised. *)
Theorem C9_notebooks_agree cls clsname bases attrs (s : state World) :
  (exists d s',
      Part000.MetaAlgorithm.__new__ type_new cls clsname bases attrs s
      = (Return d, s')
      /\ Notebook.MetaAlgorithm.__new__ type_new cls clsname bases attrs s
         = (Return d, s'))
  \/
  (exists e1 e2 s' k,
      Part000.MetaAlgorithm.__new__ type_new cls clsname bases attrs s
      = (Raise e1, s')
      /\ Notebook.MetaAlgorithm.__new__ type_new cls clsname bases attrs s
         = (Raise e2, s')
      /\ failure_kind_of e1 = Some k
      /\ failure_kind_of e2 = Some k)
  \/
  (exists e s',
      Part000.MetaAlgorithm.__new__ type_new cls clsname bases attrs s
      = (Raise e, s')
      /\ Notebook.MetaAlgorithm.__new__ type_new cls clsname bases attrs s
         = (Raise e, s')
      /\ type_new cls clsname bases attrs (world s) = (Raise e, world s')).
Proof.
  rewrite Part000_refines, Notebook_refines.
  destruct (passes clsname attrs) eqn:Hp.
  - rewrite !spec_run_passes by done.
    destruct (type_new cls clsname bases attrs (world s)) as [[d|e] w];
      cbn [fst snd].
    + left. eauto.
    + right. right. eauto.
  - destruct (spec_run_fails type_new message_part000 cls clsname bases attrs s Hp)
      as (k1 & Hk1 & -> & _).
    destruct (spec_run_fails type_new message_notebook cls clsname bases attrs s Hp)
      as (k2 & Hk2 & -> & _).
    assert (k2 = k1) as -> by congruence.
    destruct (failure_kind_of_message k1) as [H1 H2].
    right. left. eexists _, _, _, k1. eauto.
Qed.

(** C10. The kind asked of [train] and [classify] is [FunctionType], not
    callability: with a string [contributor], a definition not named
    [Algorithm] whose [train] is callable but not a function is rejected
    with the MissingTrainMethod error; and, with a [train] that is a
    function, one whose [classify] is callable but not a function is
    rejected with the MissingClassifyMethod error. *)
Theorem C10_callable_is_not_enough cls clsname bases attrs (s : state World) c :
  clsname <> "Algorithm" ->
  attrs !! "contributor" = Some c -> isinstance c str = true ->
  (forall v,
      attrs !! "train" = Some v ->
      callable v = true -> isinstance v FunctionType = false ->
      (Part000.MetaAlgorithm.__new__ type_new cls clsname bases attrs s
       = (Raise (RuntimeError "missing training method"),
          mkState (world s)
            (trace s ++ accesses attrs "contributor" ++ accesses attrs "train"))
       /\
       Notebook.MetaAlgorithm.__new__ type_new cls clsname bases attrs s
       = (Raise (RuntimeError "missing training method"),
          mkState (world s)
            (trace s ++ accesses attrs "contributor" ++ accesses attrs "train")))
      /\ failure_kind_of (RuntimeError "missing training method")
         = Some MissingTrainMethod)
  /\
  (forall t v,
      attrs !! "train" = Some t -> isinstance t FunctionType = true ->
      attrs !! "classify" = Some v ->
      callable v = true -> isinstance v FunctionType = false ->
      (Part000.MetaAlgorithm.__new__ type_new cls clsname bases attrs s
       = (Raise (RuntimeError "missing classification method"),
          mkState (world s)
            (trace s ++ accesses attrs "contributor" ++ accesses attrs "train"
                     ++ accesses attrs "classify"))
       /\
       Notebook.MetaAlgorithm.__new__ type_new cls clsname bases attrs s
       = (Raise (RuntimeError "missing classification method"),
          mkState (world s)
            (trace s ++ accesses attrs "contributor" ++ accesses attrs "train"
                     ++ accesses attrs "classify")))
      /\ failure_kind_of (RuntimeError "missing classification method")
         = Some MissingClassifyMethod).
Proof.
  intros Hne Hc Hstr.
  assert (rule_holds attrs ("contributor", str, MissingContributor) = true) as Hr1.
  { unfold rule_holds, conforms. cbn [fst snd]. by rewrite Hc. }
  rewrite Part000_refines, Notebook_refines, !spec_not_root by done.
  unfold rules. cbn [first_failure]. rewrite Hr1. split.
  - intros v Ht _ Hv.
    assert (rule_holds attrs ("train", FunctionType, MissingTrainMethod) = false) as ->.
    { unfold rule_holds, conforms. cbn [fst snd]. by rewrite Ht. }
    cbn [fst snd]. rewrite <- app_assoc. done.
  - intros t v Ht Hfun Hcl _ Hv.
    assert (rule_holds attrs ("train", FunctionType, MissingTrainMethod) = true) as ->.
    { unfold rule_holds, conforms. cbn [fst snd]. by rewrite Ht. }
    assert (rule_holds attrs ("classify", FunctionType, MissingClassifyMethod) = false) as ->.
    { unfold rule_holds, conforms. cbn [fst snd]. by rewrite Hcl. }
    cbn [fst snd]. rewrite <- !app_assoc. done.
Qed.

End Claims.

(** C6. When validation succeeds (the name is [Algorithm], or all three
    rules hold), both versions of [__new__] call the class constructor
    with the very (cls, name, bases, attrs) they were given and return what
    it produces, unchanged (or raise what it raises), whatever the
    constructor is; with the
    constructor of the specification, the descriptor they return has the
    name, the bases and the attribute table that were passed in. *)
Theorem C6_pass_through clsname attrs :
  (clsname = "Algorithm" \/
   (conforms attrs "contributor" str = true /\
    conforms attrs "train" FunctionType = true /\
    conforms attrs "classify" FunctionType = true)) ->
  (forall (World Class R : Type)
          (type_new : Class -> string -> list Class -> Attrs -> World -> result R * World)
          cls bases (s : state World),
      exists t,
        Part000.MetaAlgorithm.__new__ type_new cls clsname bases attrs s
        = ((type_new cls clsname bases attrs (world s)).1,
           mkState (type_new cls clsname bases attrs (world s)).2 t)
        /\
        Notebook.MetaAlgorithm.__new__ type_new cls clsname bases attrs s
        = ((type_new cls clsname bases attrs (world s)).1,
           mkState (type_new cls clsname bases attrs (world s)).2 t))
  /\
  (forall cls bases (s : state (list ClassDescriptor)),
      exists d s',
        Part000.MetaAlgorithm.__new__ construct cls clsname bases attrs s
        = (Return d, s')
        /\ Notebook.MetaAlgorithm.__new__ construct cls clsname bases attrs s
           = (Return d, s')
        /\ cd_name d = clsname /\ cd_bases d = bases /\ cd_attrs d = attrs).
Proof.
  intros Hok.
  assert (forall (World Class R : Type)
            (type_new : Class -> string -> list Class -> Attrs -> World -> result R * World)
            cls bases (s : state World),
            exists t,
              Part000.MetaAlgorithm.__new__ type_new cls clsname bases attrs s
              = ((type_new cls clsname bases attrs (world s)).1,
                 mkState (type_new cls clsname bases attrs (world s)).2 t)
              /\
              Notebook.MetaAlgorithm.__new__ type_new cls clsname bases attrs s
              = ((type_new cls clsname bases attrs (world s)).1,
                 mkState (type_new cls clsname bases attrs (world s)).2 t))
    as Hgen.
  { intros World Class R type_new cls bases s.
    rewrite Part000_refines, Notebook_refines. unfold validator_spec.
    destruct (String.eqb clsname "Algorithm") eqn:Hroot.
    - rewrite super_new_run. eauto.
    - destruct Hok as [-> | (H1 & H2 & H3)]; [done|].
      unfold rules, first_failure, rule_holds. cbn [fst snd].
      rewrite H1, H2, H3, super_new_run. eauto. }
  split; [exact Hgen|].
  intros cls bases s. destruct (Hgen _ _ _ construct cls bases s) as (t & HP & HN).
  eexists _, _. split; [exact HP|]. split; [exact HN|]. done.
Qed.

(** ** The claims at the notebooks' examples *)

(** The failing [class Guess(Algorithm)] of the notebooks (no
    [contributor], no [train]) is rejected for its [contributor]. *)
Lemma C2_witness :
  (Part000.MetaAlgorithm.__new__ construct MetaAlgorithm "Guess" [Algorithm]
     Guess_attrs_bad s0
   = (Raise (RuntimeError "missing contributor"),
      mkState (world s0) (trace s0 ++ accesses Guess_attrs_bad "contributor"))
   /\ failure_kind_of (RuntimeError "missing contributor")
      = Some MissingContributor)
  /\
  (Notebook.MetaAlgorithm.__new__ construct MetaAlgorithm "Guess" [Algorithm]
     Guess_attrs_bad s0
   = (Raise (RuntimeError "missing contributor information"),
      mkState (world s0) (trace s0 ++ accesses Guess_attrs_bad "contributor"))
   /\ failure_kind_of (RuntimeError "missing contributor information")
      = Some MissingContributor).
Proof.
  apply (C2_missing_contributor construct MetaAlgorithm "Guess" [Algorithm]
           Guess_attrs_bad s0).
  - discriminate.
  - left. reflexivity.
Defined.

(** A class with a [contributor] whose [train] is the number 3. *)
Lemma C3_witness :
  (Part000.MetaAlgorithm.__new__ construct MetaAlgorithm "Guess" [Algorithm]
     (<["train" := VInt 3]> Guess_attrs) s0).1
  = Raise (RuntimeError "missing training method").
Proof.
  pose proof (C3_missing_train construct MetaAlgorithm "Guess" [Algorithm]
                (<["train" := VInt 3]> Guess_attrs) s0 (VStr "Author")) as H.
  destruct H as [[-> _] _].
  - discriminate.
  - reflexivity.
  - reflexivity.
  - right. exists (VInt 3). split; reflexivity.
  - reflexivity.
Defined.

(** A class with a [contributor] and a [train] but no [classify]. *)
Lemma C4_witness :
  (Notebook.MetaAlgorithm.__new__ construct MetaAlgorithm "Guess" [Algorithm]
     (delete "classify" Guess_attrs) s0).1
  = Raise (RuntimeError "missing classification method").
Proof.
  pose proof (C4_missing_classify construct MetaAlgorithm "Guess" [Algorithm]
                (delete "classify" Guess_attrs) s0
                (VStr "Author") (VFunction "Guess.train")) as H.
  destruct H as [[_ ->] _].
  - discriminate.
  - reflexivity.
  - reflexivity.
  - reflexivity.
  - reflexivity.
  - left. reflexivity.
  - reflexivity.
Defined.

(** The scenario of the specification: [Guess] with only [classify] breaks
    the first two rules and fails with MissingContributor; only
    [contributor] was looked for. *)
Lemma C5_witness :
  Part000.MetaAlgorithm.__new__ construct MetaAlgorithm "Guess" [Algorithm]
    Guess_attrs_bad s0
  = (Raise (RuntimeError "missing contributor"),
     mkState [] [Contains "contributor"])
  /\ rule_holds Guess_attrs_bad ("train", FunctionType, MissingTrainMethod)
     = false.
Proof.
  split; [|reflexivity].
  pose proof (C5_first_failing_rule construct MetaAlgorithm "Guess" [Algorithm]
                Guess_attrs_bad s0
                [] ("contributor", str, MissingContributor)
                [("train", FunctionType, MissingTrainMethod);
                 ("classify", FunctionType, MissingClassifyMethod)]) as H.
  destruct H as [[-> _] _].
  - discriminate.
  - reflexivity.
  - constructor.
  - reflexivity.
  - reflexivity.
Defined.

(** The conforming [class Guess(Algorithm)] of the notebooks. *)
Lemma C6_witness :
  exists d s',
    Part000.MetaAlgorithm.__new__ construct MetaAlgorithm "Guess" [Algorithm]
      Guess_attrs s0 = (Return d, s')
    /\ Notebook.MetaAlgorithm.__new__ construct MetaAlgorithm "Guess" [Algorithm]
         Guess_attrs s0 = (Return d, s')
    /\ cd_name d = "Guess" /\ cd_bases d = [Algorithm] /\ cd_attrs d = Guess_attrs.
Proof.
  apply (C6_pass_through "Guess" Guess_attrs).
  right. repeat split; reflexivity.
Defined.

(** The failing [class Guess(Algorithm)]: the registry stays empty. *)
Lemma C7_witness :
  world (mkState (World := list ClassDescriptor) [] [Contains "contributor"])
  = world s0
  /\ forall q,
       rtc (step (Part000.MetaAlgorithm.__new__ construct))
           (Unvalidated MetaAlgorithm "Guess" [Algorithm] Guess_attrs_bad, s0) q ->
       constructible q.1 = None.
Proof.
  pose proof (C7_rejected_is_terminal construct
                (Part000.MetaAlgorithm.__new__ construct)
                MetaAlgorithm "Guess" [Algorithm] Guess_attrs_bad
                s0 (mkState [] [Contains "contributor"])
                (RuntimeError "missing contributor")) as H.
  destruct H as (H1 & _ & H2 & _).
  - left. reflexivity.
  - apply step_Rejected. reflexivity.
  - split; [exact (H1 eq_refl) | exact H2].
Defined.

(** Three attempts in a row at the failing [Guess]. *)
Lemma C8_witness :
  (revalidate (Notebook.MetaAlgorithm.__new__ construct) 3
     MetaAlgorithm "Guess" [Algorithm] Guess_attrs_bad s0).1
  = replicate 3
      (outcome (Notebook.MetaAlgorithm.__new__ construct
                  MetaAlgorithm "Guess" [Algorithm] Guess_attrs_bad s0).1).
Proof.
  pose proof (C8_same_outcome_every_time construct
                (Notebook.MetaAlgorithm.__new__ construct)
                MetaAlgorithm "Guess" [Algorithm] Guess_attrs_bad s0 s0 3) as H.
  destruct H as (H1 & _ & _).
  - right. reflexivity.
  - exact (H1 eq_refl).
Defined.

(** [train = len]: a built-in function is callable, and is rejected. *)
Lemma C10_witness :
  (Part000.MetaAlgorithm.__new__ construct MetaAlgorithm "Guess" [Algorithm]
     (<["train" := VBuiltin "len"]> Guess_attrs) s0).1
  = Raise (RuntimeError "missing training method")
  /\
  (Notebook.MetaAlgorithm.__new__ construct MetaAlgorithm "Guess" [Algorithm]
     (<["classify" := VClass "Tree"]> Guess_attrs) s0).1
  = Raise (RuntimeError "missing classification method").
Proof.
  split.
  - pose proof (C10_callable_is_not_enough construct MetaAlgorithm "Guess"
                  [Algorithm] (<["train" := VBuiltin "len"]> Guess_attrs) s0
                  (VStr "Author")) as H.
    destruct H as [H _]; [discriminate | reflexivity | reflexivity |].
    destruct (H (VBuiltin "len")) as [[-> _] _]; reflexivity.
  - pose proof (C10_callable_is_not_enough construct MetaAlgorithm "Guess"
                  [Algorithm] (<["classify" := VClass "Tree"]> Guess_attrs) s0
                  (VStr "Author")) as H.
    destruct H as [_ H]; [discriminate | reflexivity | reflexivity |].
    destruct (H (VFunction "Guess.train") (VClass "Tree")) as [[_ ->] _];
      reflexivity.
Defined.

(** The root name with a base named twice: no rule is evaluated, and the
    constructor's [TypeError] is what comes out.  No descriptor is
    produced. *)
Lemma C1_counterexample :
  Part000.MetaAlgorithm.__new__ construct_strict MetaAlgorithm "Algorithm"
    [Algorithm; Algorithm] ∅ s0
  = (Raise (TypeError "duplicate base class"), s0)
  /\
  Notebook.MetaAlgorithm.__new__ construct_strict MetaAlgorithm "Algorithm"
    [Algorithm; Algorithm] ∅ s0
  = (Raise (TypeError "duplicate base class"), s0)
  /\
  ~ (forall bases attrs, exists d s',
        Part000.MetaAlgorithm.__new__ construct_strict MetaAlgorithm "Algorithm"
          bases attrs s0 = (Return d, s')).
Proof.
  split; [reflexivity|]. split; [reflexivity|].
  intros H. destruct (H [Algorithm; Algorithm] ∅) as (d & s' & Hrun).
  discriminate Hrun.
Qed.

(** ** More examples *)

(** The root class of the notebooks: [class Algorithm(metaclass=MetaAlgorithm): pass]. *)
Example Algorithm_is_defined :
  Part000.MetaAlgorithm.__new__ construct MetaAlgorithm "Algorithm" [] ∅ s0
  = (Return Algorithm, mkState [Algorithm] []).
Proof. reflexivity. Qed.

(** The conforming [Guess]: every rule is evaluated, in order. *)
Example Guess_is_defined :
  Notebook.MetaAlgorithm.__new__ construct MetaAlgorithm "Guess" [Algorithm]
    Guess_attrs s0
  = (Return (mkClass "Guess" [Algorithm] Guess_attrs),
     mkState [mkClass "Guess" [Algorithm] Guess_attrs]
       [Contains "contributor"; GetItem "contributor";
        Contains "train"; GetItem "train";
        Contains "classify"; GetItem "classify"]).
Proof. reflexivity. Qed.

(** A [train] wrapped by [staticmethod] is not a function object. *)
Example staticmethod_train_is_rejected :
  (Part000.MetaAlgorithm.__new__ construct MetaAlgorithm "Guess" [Algorithm]
     (<["train" := VStaticMethod (VFunction "Guess.train")]> Guess_attrs) s0).1
  = Raise (RuntimeError "missing training method").
Proof. reflexivity. Qed.

(** The two notebooks word the first error differently. *)
Example messages_differ :
  message_part000 MissingContributor <> message_notebook MissingContributor.
Proof. discriminate. Qed.

(** ** Further properties of the validator *)

Section Verdict.
Context {World Class R : Type}.
Variable type_new :
  Class -> string -> list Class -> Attrs -> World -> result R * World.

(** X1. Soundness of the check: when [__new__] returns a class for a
    definition not named [Algorithm], the namespace has a string
    [contributor] and functions [train] and [classify]. *)
Theorem X1_accepted_only_if_conforming cls clsname bases attrs
    (s s' : state World) d :
  clsname <> "Algorithm" ->
  (Part000.MetaAlgorithm.__new__ type_new cls clsname bases attrs s
   = (Return d, s')
   \/ Notebook.MetaAlgorithm.__new__ type_new cls clsname bases attrs s
      = (Return d, s')) ->
  exists c f g,
    attrs !! "contributor" = Some (VStr c)
    /\ attrs !! "train" = Some (VFunction f)
    /\ attrs !! "classify" = Some (VFunction g).
Proof.
  intros Hne%String.eqb_neq Hrun.
  assert (passes clsname attrs = true) as Hp.
  { destruct (passes clsname attrs) eqn:Hp; [done|].
    rewrite Part000_refines, Notebook_refines in Hrun.
    destruct (spec_run_fails type_new message_part000 cls clsname bases attrs s Hp)
      as (k1 & _ & H1 & _).
    destruct (spec_run_fails type_new message_notebook cls clsname bases attrs s Hp)
      as (k2 & _ & H2 & _).
    rewrite H1, H2 in Hrun. by destruct Hrun. }
  unfold passes in Hp. rewrite Hne in Hp. cbn [orb] in Hp.
  apply andb_prop in Hp as [[[c Hc]%conforms_str [f Hf]%conforms_FunctionType]%andb_prop
                              [g Hg]%conforms_FunctionType].
  eauto 10.
Qed.

(** X2. Where the exception of a run comes from: it is one of the three
    [RuntimeError]s of the rules, raised with the host state untouched, or
    it is the exception the class constructor raised for these arguments.
    The subscripts [attrs[key]] never raise: a [KeyError] can only be the
    constructor's. *)
Theorem X2_exceptions_of_a_run cls clsname bases attrs (s s' : state World) e :
  (Part000.MetaAlgorithm.__new__ type_new cls clsname bases attrs s
   = (Raise e, s')
   \/ Notebook.MetaAlgorithm.__new__ type_new cls clsname bases attrs s
      = (Raise e, s')) ->
  (passes clsname attrs = false
   /\ world s' = world s
   /\ exists k, e = RuntimeError (message_part000 k)
                \/ e = RuntimeError (message_notebook k))
  \/
  (passes clsname attrs = true
   /\ type_new cls clsname bases attrs (world s) = (Raise e, world s')).
Proof.
  rewrite Part000_refines, Notebook_refines. intros Hrun.
  destruct (passes clsname attrs) eqn:Hp.
  - right. split; [done|]. rewrite !spec_run_passes in Hrun by done.
    destruct (type_new cls clsname bases attrs (world s)) as [r w].
    cbn [fst snd] in *. destruct Hrun as [[= -> <-] | [= -> <-]]; done.
  - left. split; [done|].
    destruct (spec_run_fails type_new message_part000 cls clsname bases attrs s Hp)
      as (k1 & _ & H1 & _).
    destruct (spec_run_fails type_new message_notebook cls clsname bases attrs s Hp)
      as (k2 & _ & H2 & _).
    rewrite H1, H2 in Hrun.
    destruct Hrun as [[= <- <-] | [= <- <-]]; eauto.
Qed.

(** X3. The decision depends on the name and on the entries of [attrs] for
    [contributor], [train] and [classify] only.  For two namespaces that
    agree on these three keys, whatever else they hold and whatever the
    metaclass, the bases and the states are, the two runs make the same
    accesses and either both raise the same exception of a rule, or both
    hand over to the class constructor. *)
Theorem X3_only_three_entries_matter
    (new : Class -> string -> list Class -> Attrs -> M World R)
    cls cls' clsname bases bases' attrs attrs' (s s' : state World) :
  (new = Part000.MetaAlgorithm.__new__ type_new \/
   new = Notebook.MetaAlgorithm.__new__ type_new) ->
  attrs !! "contributor" = attrs' !! "contributor" ->
  attrs !! "train" = attrs' !! "train" ->
  attrs !! "classify" = attrs' !! "classify" ->
  exists t,
    (exists e,
        new cls clsname bases attrs s
        = (Raise e, mkState (world s) (trace s ++ t))
        /\ new cls' clsname bases' attrs' s'
           = (Raise e, mkState (world s') (trace s' ++ t)))
    \/
    (new cls clsname bases attrs s
     = super_new type_new cls clsname bases attrs
         (mkState (world s) (trace s ++ t))
     /\ new cls' clsname bases' attrs' s'
        = super_new type_new cls' clsname bases' attrs'
            (mkState (world s') (trace s' ++ t))).
Proof.
  intros [message Hspec]%either_version Hc Ht Hf.
  assert (first_failure rules attrs [] = first_failure rules attrs' []) as Hff.
  { unfold rules, first_failure, rule_holds. cbn [fst snd].
    by rewrite (conforms_agree _ _ _ str Hc),
               (conforms_agree _ _ _ FunctionType Ht),
               (conforms_agree _ _ _ FunctionType Hf),
               (accesses_agree _ _ _ Hc), (accesses_agree _ _ _ Ht),
               (accesses_agree _ _ _ Hf). }
  assert (run_accesses clsname attrs' = run_accesses clsname attrs) as Hacc.
  { unfold run_accesses. by rewrite Hff. }
  assert (passes clsname attrs' = passes clsname attrs) as Hpass.
  { unfold passes.
    by rewrite (conforms_agree _ _ _ str Hc),
               (conforms_agree _ _ _ FunctionType Ht),
               (conforms_agree _ _ _ FunctionType Hf). }
  exists (run_accesses clsname attrs). rewrite !Hspec.
  destruct (passes clsname attrs) eqn:Hp.
  - right. rewrite !spec_run_passes, !super_new_run, Hacc by done. done.
  - left.
    destruct (spec_run_fails type_new message cls clsname bases attrs s Hp)
      as (k & Hk & -> & _).
    destruct (spec_run_fails type_new message cls' clsname bases' attrs' s' Hpass)
      as (k' & Hk' & -> & _).
    rewrite <- Hff in Hk'. rewrite Hacc. simplify_eq. eauto.
Qed.

(** X4. What a run reads of [attrs]: at most six accesses, all of them to
    [contributor], [train] or [classify], and every subscript [attrs[key]]
    comes directly after the membership test of the same key and finds the
    key.  Both versions make the same accesses. *)
Theorem X4_guarded_accesses cls clsname bases attrs (s : state World) :
  exists t,
    trace (Part000.MetaAlgorithm.__new__ type_new cls clsname bases attrs s).2
    = trace s ++ t
    /\ trace (Notebook.MetaAlgorithm.__new__ type_new cls clsname bases attrs s).2
       = trace s ++ t
    /\ length t <= 6
    /\ Forall (fun ev => key_of ev ∈ rule_keys) t
    /\ forall i key,
         t !! i = Some (GetItem key) ->
         is_Some (attrs !! key)
         /\ exists j, i = S j /\ t !! j = Some (Contains key).
Proof.
  exists (run_accesses clsname attrs).
  rewrite Part000_refines, Notebook_refines, !spec_trace.
  destruct (run_accesses_shape clsname attrs) as (Hguard & Hkeys & Hlen).
  done.
Qed.

(** X5. The two notebooks differ in one message only: their runs are equal,
    result and state, exactly when the name is [Algorithm] or the
    [contributor] rule holds. *)
Theorem X5_versions_differ_in_one_message cls clsname bases attrs
    (s : state World) :
  Part000.MetaAlgorithm.__new__ type_new cls clsname bases attrs s
  = Notebook.MetaAlgorithm.__new__ type_new cls clsname bases attrs s
  <-> (clsname = "Algorithm" \/ conforms attrs "contributor" str = true).
Proof.
  rewrite Part000_refines, Notebook_refines.
  destruct (passes clsname attrs) eqn:Hp.
  - rewrite !spec_run_passes by done. split; [intros _|done].
    unfold passes in Hp.
    destruct (String.eqb_spec clsname "Algorithm") as [?|?]; [by left|right].
    cbn [orb] in Hp. by apply andb_prop in Hp as [[? _]%andb_prop _].
  - destruct (spec_run_fails type_new message_part000 cls clsname bases attrs s Hp)
      as (k1 & Hk1 & -> & Hc1).
    destruct (spec_run_fails type_new message_notebook cls clsname bases attrs s Hp)
      as (k2 & Hk2 & -> & Hc2).
    assert (k2 = k1) as -> by congruence.
    assert (clsname <> "Algorithm") as Hne.
    { intros ->. unfold passes in Hp. discriminate. }
    split.
    + intros [= Hmsg]. right.
      destruct (conforms attrs "contributor" str); [done|].
      rewrite (proj2 Hc1 eq_refl) in Hmsg. discriminate.
    + intros [? | Hc]; [done|].
      destruct k1; [|done|done].
      rewrite (proj1 Hc1 eq_refl) in Hc. discriminate.
Qed.

End Verdict.

(** ** The further properties at the notebooks' examples *)

Lemma X1_witness :
  exists c f g,
    Guess_attrs !! "contributor" = Some (VStr c)
    /\ Guess_attrs !! "train" = Some (VFunction f)
    /\ Guess_attrs !! "classify" = Some (VFunction g).
Proof.
  apply (X1_accepted_only_if_conforming construct MetaAlgorithm "Guess"
           [Algorithm] Guess_attrs s0
           (mkState [mkClass "Guess" [Algorithm] Guess_attrs]
              [Contains "contributor"; GetItem "contributor";
               Contains "train"; GetItem "train";
               Contains "classify"; GetItem "classify"])
           (mkClass "Guess" [Algorithm] Guess_attrs)).
  - discriminate.
  - left. reflexivity.
Defined.

(** A conforming [Guess] with a base named twice: the exception is the
    constructor's. *)
Lemma X2_witness :
  passes "Guess" Guess_attrs = true
  /\ construct_strict MetaAlgorithm "Guess" [Algorithm; Algorithm] Guess_attrs []
     = (Raise (TypeError "duplicate base class"), []).
Proof.
  destruct (X2_exceptions_of_a_run construct_strict MetaAlgorithm "Guess"
              [Algorithm; Algorithm] Guess_attrs s0
              (mkState []
                 [Contains "contributor"; GetItem "contributor";
                  Contains "train"; GetItem "train";
                  Contains "classify"; GetItem "classify"])
              (TypeError "duplicate base class")) as [(Hp & _) | H].
  - left. reflexivity.
  - discriminate Hp.
  - exact H.
Defined.

(** [Guess] with an [__init__] added, and no base. *)
Lemma X3_witness :
  exists t,
    (exists e,
        Part000.MetaAlgorithm.__new__ construct MetaAlgorithm "Guess" [Algorithm]
          Guess_attrs_bad s0
        = (Raise e, mkState (world s0) (trace s0 ++ t))
        /\ Part000.MetaAlgorithm.__new__ construct MetaAlgorithm "Guess" []
             (<["__init__" := VFunction "Guess.__init__"]> Guess_attrs_bad) s0
           = (Raise e, mkState (world s0) (trace s0 ++ t)))
    \/
    (Part000.MetaAlgorithm.__new__ construct MetaAlgorithm "Guess" [Algorithm]
       Guess_attrs_bad s0
     = super_new construct MetaAlgorithm "Guess" [Algorithm] Guess_attrs_bad
         (mkState (world s0) (trace s0 ++ t))
     /\ Part000.MetaAlgorithm.__new__ construct MetaAlgorithm "Guess" []
          (<["__init__" := VFunction "Guess.__init__"]> Guess_attrs_bad) s0
        = super_new construct MetaAlgorithm "Guess" []
            (<["__init__" := VFunction "Guess.__init__"]> Guess_attrs_bad)
            (mkState (world s0) (trace s0 ++ t))).
Proof.
  apply (X3_only_three_entries_matter construct
           (Part000.MetaAlgorithm.__new__ construct)
           MetaAlgorithm MetaAlgorithm "Guess" [Algorithm] [] Guess_attrs_bad
           (<["__init__" := VFunction "Guess.__init__"]> Guess_attrs_bad) s0 s0);
    [left|..]; reflexivity.
Defined.
